(** * HealthLLM starter: the API route stubs and the pages that call them

    A shallow embedding of the four Next.js API handlers (login, signup,
    upload, llm) and of the submit handlers of the three pages (Home, Upload,
    Dashboard).  Each definition names the source file it is read from.

    JavaScript values are an inductive type; a handler is a computation in a
    small monad that records, in order, the calls it makes on its environment
    (the [res] object on the server; [fetch], [alert], the router and the React
    state setters in the browser) and ends normally or by throwing. *)

From Stdlib Require Import Floats.PrimFloat ZArith String Ascii List.
From stdpp Require Import gmap strings list.

Local Open Scope string_scope.
Local Open Scope Z_scope.

Set Warnings "-register-all".

(** ** JavaScript values *)

Module JS.

(** The values a request body, a parsed form or a decoded JSON response can
    hold.  Numbers are IEEE 754 doubles, objects are finite maps from property
    names to values. *)
Inductive jsval : Type :=
| JUndefined
| JNull
| JBool (b : bool)
| JNum (x : float)
| JStr (s : string)
| JArr (l : list jsval)
| JObj (o : gmap string jsval).

Inductive error : Type :=
| TypeError
| SyntaxError.

(** ToBoolean: [undefined], [null], [false], [+0], [-0], [NaN] and the empty
    string are falsy, everything else is truthy. *)
Definition truthy (v : jsval) : bool :=
  match v with
  | JUndefined | JNull => false
  | JBool b => b
  | JNum x => negb (PrimFloat.eqb x 0%float || PrimFloat.is_nan x)
  | JStr s => negb (String.eqb s "")
  | JArr _ | JObj _ => true
  end.

(** [a || b] on values already computed. *)
Definition js_or (a b : jsval) : jsval := if truthy a then a else b.

(** [v === undefined || v === null] *)
Definition nullish (v : jsval) : bool :=
  match v with
  | JUndefined | JNull => true
  | _ => false
  end.

(** [v[k]] for a [v] that is neither [undefined] nor [null], and a name [k]
    that no built-in prototype defines (username, password, prompt, text, file,
    originalFilename: every name this program reads): an own property of an
    object, [undefined] otherwise. *)
Definition get (v : jsval) (k : string) : jsval :=
  match v with
  | JObj o => default JUndefined (o !! k)
  | _ => JUndefined
  end.

Definition dquote : string := String (ascii_of_nat 34) EmptyString.
Definition newline : string := String (ascii_of_nat 10) EmptyString.

Section ToString.

(** Number::toString of ECMAScript (the shortest decimal that reads back as
    the same double); part of the language runtime, not of this repository. *)
Variable Number_toString : float -> string.

(** ToString, as a template literal applies it to the values above.  An array
    joins its elements with commas, [undefined] and [null] elements giving the
    empty string.  A plain object gives [[object Object]] through
    Object.prototype.toString; an own property named toString shadows that
    method with a value that is not callable, and the conversion throws a
    TypeError. *)
Fixpoint to_string (v : jsval) : option string :=
  match v with
  | JUndefined => Some "undefined"
  | JNull => Some "null"
  | JBool true => Some "true"
  | JBool false => Some "false"
  | JNum x => Some (Number_toString x)
  | JStr s => Some s
  | JArr l =>
      (fix join (first : bool) (l : list jsval) : option string :=
         match l with
         | [] => Some ""
         | x :: r =>
             match (if nullish x then Some "" else to_string x), join false r with
             | Some a, Some b => Some ((if first then "" else ",") ++ a ++ b)
             | _, _ => None
             end
         end) true l
  | JObj o =>
      match o !! "toString" with
      | Some _ => None
      | None => Some "[object Object]"
      end
  end.

End ToString.

End JS.

Import JS.

(** ** Computations that call their environment and may throw *)

Module Eff.

Inductive completion (A : Type) : Type :=
| Normal (a : A)
| Throw (e : error).
Arguments Normal {A} a.
Arguments Throw {A} e.

(** The calls made, oldest first, and how the computation ended. *)
Definition eff (Ev A : Type) : Type := list Ev * completion A.

Definition ret {Ev A} (a : A) : eff Ev A := ([], Normal a).

Definition bind {Ev A B} (m : eff Ev A) (f : A -> eff Ev B) : eff Ev B :=
  match m with
  | (l, Throw e) => (l, Throw e)
  | (l, Normal a) => let '(l', c) := f a in ((l ++ l')%list, c)
  end.

Definition throw {Ev A} (e : error) : eff Ev A := ([], Throw e).

Definition emit {Ev} (ev : Ev) : eff Ev unit := ([ev], Normal tt).

Definition calls {Ev A} (m : eff Ev A) : list Ev := fst m.

(** Property access [v.k]: a TypeError on [undefined] and [null]. *)
Definition prop {Ev} (v : jsval) (k : string) : eff Ev jsval :=
  if nullish v then throw TypeError else ret (get v k).

(** Optional chaining [v?.k]. *)
Definition prop_opt {Ev} (v : jsval) (k : string) : eff Ev jsval :=
  if nullish v then ret JUndefined else ret (get v k).

(** [a && b], where [b] is evaluated only when [a] is truthy. *)
Definition js_and {Ev} (a : jsval) (b : eff Ev jsval) : eff Ev jsval :=
  if truthy a then b else ret a.

End Eff.

Import Eff.

#[global] Instance eff_ret {Ev} : MRet (eff Ev) := fun A a => ret a.
#[global] Instance eff_bind {Ev} : MBind (eff Ev) := fun A B f m => bind m f.

(** ** The API routes (pages/api) *)

Module Api.

(** What a handler reads of [req]. *)
Record request : Type := { method : string; body : jsval }.

(** What a client receives: the status line and the body as JSON, [None] for
    a body that is empty or not JSON. *)
Record response : Type := { status : Z; json : option jsval }.

(** The calls a handler makes: [res.status(n)], [res.json(v)], [res.end()],
    and [form.parse(req, callback)] of formidable. *)
Inductive call : Type :=
| Status (n : Z)
| Json (v : jsval)
| End
| FormParse.

Definition res_status (n : Z) : eff call unit := emit (Status n).
Definition res_json (v : jsval) : eff call unit := emit (Json v).
Definition res_end : eff call unit := emit End.

(** The response that a sequence of calls sends: the status code is 200 until
    [res.status] sets it, and the first [json] or [end] sends. *)
Fixpoint sent_from (code : Z) (l : list call) : option response :=
  match l with
  | [] => None
  | Status n :: r => sent_from n r
  | Json v :: _ => Some {| status := code; json := Some v |}
  | End :: _ => Some {| status := code; json := None |}
  | FormParse :: r => sent_from code r
  end.

Definition sent {A} (m : eff call A) : option response := sent_from 200 (calls m).

Definition is_post (req : request) : bool := String.eqb (method req) "POST".

(** frontend/pages/api/auth/login.js *)
Module Login.

Definition handler (req : request) : eff call unit :=
  if negb (is_post req) then res_status 405;; res_end else
  (* const { username, password } = req.body *)
  username ← prop (body req) "username";
  password ← prop (body req) "password";
  c ← js_and username (ret password);
  if truthy c then
    res_status 200;; res_json (JObj {[ "ok" := JBool true ]})
  else
    res_status 400;; res_json (JObj {[ "ok" := JBool false ]}).

End Login.

(** The signup route, /api/auth/signup (unnamed/part_002). *)
Module Signup.

Definition handler (req : request) : eff call unit :=
  if negb (is_post req) then res_status 405;; res_end else
  let body := body req in
  c ← js_and body (username ← prop body "username";
                   js_and username (prop body "password"));
  if truthy c then
    res_status 200;; res_json (JObj {[ "ok" := JBool true ]})
  else
    res_status 400;; res_json (JObj {[ "ok" := JBool false ]}).

End Signup.

(** frontend/pages/api/upload.js, lines 1 to 15 *)
Module Upload.

Section Formidable.

(** [new formidable.IncomingForm().parse(req, callback)]: the library reads
    the multipart body and calls back once with [(err, fields, files)]. *)
Variable form_parse : request -> jsval * jsval * jsval.

Definition parse (req : request) : eff call (jsval * jsval * jsval) :=
  emit FormParse;; ret (form_parse req).

Definition handler (req : request) : eff call unit :=
  if negb (is_post req) then res_status 405;; res_end else
  '(err, fields, files) ← parse req;
  if truthy err then res_status 500;; res_end else
  file ← prop files "file";
  name ← prop_opt file "originalFilename";
  res_status 200;;
  res_json (JObj {[ "ok" := JBool true; "filename" := js_or name JNull ]}).

End Formidable.

End Upload.

(** The LLM route, /api/llm (frontend/pages/api/upload.js, lines 16 to 22). *)
Module Llm.

Definition template (prompt : string) : string :=
  "Simulated LLM answer for prompt: " ++ dquote ++ prompt ++ dquote
  ++ newline ++ newline
  ++ "(Replace /api/llm with your real LLM integration.)".

Section Runtime.

Variable Number_toString : float -> string.

Definition interpolate (v : jsval) : eff call string :=
  match to_string Number_toString v with
  | Some s => ret s
  | None => throw TypeError
  end.

Definition handler (req : request) : eff call unit :=
  if negb (is_post req) then res_status 405;; res_end else
  prompt ← prop (body req) "prompt";
  s ← interpolate prompt;
  let text := template s in
  res_status 200;; res_json (JObj {[ "text" := JStr text ]}).

End Runtime.

End Llm.

End Api.

(** ** The pages *)

Module Pages.

Import Api.

(** A [File] picked in a file input. *)
Record file : Type := { file_name : string; file_data : string }.

(** The body handed to [fetch]: [JSON.stringify(v)] or a [FormData]. *)
Inductive body_init : Type :=
| JsonBody (v : jsval)
| FormData (entries : list (string * file)).

Record request_init : Type :=
  { init_method : string;
    init_headers : list (string * string);
    init_body : body_init }.

(** The promise [fetch] returns resolves with a response, whatever its
    status, or rejects (no connection). *)
Inductive fetch_outcome : Type :=
| Resolved (r : response)
| Rejected (e : error).

Definition network : Type := string -> request_init -> fetch_outcome.

(** [res.ok]: the status is in the range 200 to 299. *)
Definition ok (r : response) : bool := (200 <=? status r) && (status r <=? 299).

(** One question and its answer on the dashboard. *)
Record exchange : Type := { input : string; output : jsval }.

(** What a submit handler does to the browser. A React setter called with a
    function queues that function; React runs it on the state of the moment
    when it next renders. *)
Inductive effect : Type :=
| PreventDefault
| Fetch (url : string) (init : request_init)
| RouterPush (path : string)
| Alert (msg : string)
| SetResults (f : list exchange -> completion (list exchange))
| SetQuery (s : string).

(** [await fetch(url, init)] *)
Definition fetch (net : network) (url : string) (init : request_init)
  : eff effect response :=
  emit (Fetch url init);;
  match net url init with
  | Resolved r => ret r
  | Rejected e => throw e
  end.

(** [await res.json()] *)
Definition response_json (r : response) : eff effect jsval :=
  match json r with
  | Some v => ret v
  | None => throw SyntaxError
  end.

Definition json_headers : list (string * string) :=
  [("Content-Type", "application/json")].

(** frontend/pages/index.js, lines 1 to 85 *)
Module Home.

Record form : Type :=
  { name : string; age : string; username : string; password : string;
    disease : string; email : string; phone : string; foodHabits : string;
    gender : string }.

(** The object [form] as [JSON.stringify(form)] sends it. *)
Definition form_json (f : form) : jsval :=
  JObj (list_to_map
    [("name", JStr (name f)); ("age", JStr (age f));
     ("username", JStr (username f)); ("password", JStr (password f));
     ("disease", JStr (disease f)); ("email", JStr (email f));
     ("phone", JStr (phone f)); ("foodHabits", JStr (foodHabits f));
     ("gender", JStr (gender f))]).

Definition login_init (f : form) : request_init :=
  {| init_method := "POST";
     init_headers := json_headers;
     init_body := JsonBody (JObj {[ "username" := JStr (username f);
                                    "password" := JStr (password f) ]}) |}.

Definition signup_init (f : form) : request_init :=
  {| init_method := "POST";
     init_headers := json_headers;
     init_body := JsonBody (form_json f) |}.

Definition handleLogin (net : network) (f : form) : eff effect unit :=
  emit PreventDefault;;
  res ← fetch net "/api/auth/login" (login_init f);
  if ok res then emit (RouterPush "/dashboard")
  else emit (Alert "Login failed").

Definition handleSignup (net : network) (f : form) : eff effect unit :=
  emit PreventDefault;;
  res ← fetch net "/api/auth/signup" (signup_init f);
  if ok res then emit (RouterPush "/dashboard")
  else emit (Alert "Sign up failed").

(** [onSubmit={isSignup ? handleSignup : handleLogin}] *)
Definition onSubmit (isSignup : bool) : network -> form -> eff effect unit :=
  if isSignup then handleSignup else handleLogin.

(** The inputs of the form (eight [input] elements and one [select]), each
    with [onChange={change}], by their [name] attribute. *)
Inductive field : Type :=
| FName | FAge | FUsername | FPassword | FDisease | FEmail | FPhone
| FFoodHabits | FGender.

Definition field_name (k : field) : string :=
  match k with
  | FName => "name" | FAge => "age" | FUsername => "username"
  | FPassword => "password" | FDisease => "disease" | FEmail => "email"
  | FPhone => "phone" | FFoodHabits => "foodHabits" | FGender => "gender"
  end.

(** [form[k]] *)
Definition read (k : field) (f : form) : string :=
  match k with
  | FName => name f | FAge => age f | FUsername => username f
  | FPassword => password f | FDisease => disease f | FEmail => email f
  | FPhone => phone f | FFoodHabits => foodHabits f | FGender => gender f
  end.

(** [change]: [setForm({...form, [e.target.name]: e.target.value})], for an
    event of the input [k] whose new value is [v]. *)
Definition change (k : field) (v : string) (f : form) : form :=
  {| name := if k is FName then v else name f;
     age := if k is FAge then v else age f;
     username := if k is FUsername then v else username f;
     password := if k is FPassword then v else password f;
     disease := if k is FDisease then v else disease f;
     email := if k is FEmail then v else email f;
     phone := if k is FPhone then v else phone f;
     foodHabits := if k is FFoodHabits then v else foodHabits f;
     gender := if k is FGender then v else gender f |}.

(** The inputs that are rendered: username and password in both modes, the
    seven others under [isSignup &&]. *)
Definition rendered (isSignup : bool) : list field :=
  if isSignup then
    [FName; FAge; FUsername; FPassword; FDisease; FEmail; FPhone; FFoodHabits; FGender]
  else [FUsername; FPassword].

(** The two states of the page: [isSignup] and [form]. *)
Record state : Type := { isSignup : bool; values : form }.

(** [useState(false)] and [useState({name:'', age:'', ...})] *)
Definition initial : state :=
  {| isSignup := false;
     values := {| name := ""; age := ""; username := ""; password := "";
                  disease := ""; email := ""; phone := ""; foodHabits := "";
                  gender := "" |} |}.

(** What the user does before a submit: type into an input, or click the
    button that switches between login and signup
    ([setIsSignup(!isSignup)]). *)
Inductive action : Type :=
| Type_ (k : field) (v : string)
| Toggle.

Definition step (st : state) (a : action) : state :=
  match a with
  | Type_ k v => {| isSignup := isSignup st; values := change k v (values st) |}
  | Toggle => {| isSignup := negb (isSignup st); values := values st |}
  end.

Definition run (st : state) (l : list action) : state := fold_left step l st.

(** The submit of the form in the state [st]. *)
Definition submit (net : network) (st : state) : eff effect unit :=
  onSubmit (isSignup st) net (values st).

End Home.

(** The upload page (frontend/pages/index.js, lines 86 to 124). *)
Module Upload.

Definition upload_init (f : file) : request_init :=
  {| init_method := "POST";
     init_headers := [];
     init_body := FormData [("file", f)] |}.

(** The state [file] is a [File] or [null]. *)
Definition submit (net : network) (file : option file) : eff effect unit :=
  emit PreventDefault;;
  match file with
  | None => emit (Alert "Choose a PDF")
  | Some f =>
      res ← fetch net "/api/upload" (upload_init f);
      if ok res then emit (Alert "Uploaded");; emit (RouterPush "/dashboard")
      else emit (Alert "Upload failed")
  end.

(** [onChange={(e)=>setFile(e.target.files?.[0]||null)}], for the list of
    files selected in the input: the first one, [null] when there is none. *)
Definition onChange (files : list file) : option file := head files.

End Upload.

(** frontend/pages/dashboard.js *)
Module Dashboard.

Record state : Type := { query : string; results : list exchange }.

Definition llm_init (query : string) : request_init :=
  {| init_method := "POST";
     init_headers := json_headers;
     init_body := JsonBody (JObj {[ "prompt" := JStr query ]}) |}.

(** [prev => [{input: query, output: data.text}, ...prev]]; reading
    [data.text] throws when [data] is [null]. *)
Definition prepend (query : string) (data : jsval) (prev : list exchange)
  : completion (list exchange) :=
  if nullish data then Throw TypeError
  else Normal ({| input := query; output := get data "text" |} :: prev).

(** [query] is the state of the render whose form was submitted. *)
Definition askLLM (net : network) (query : string) : eff effect unit :=
  emit PreventDefault;;
  res ← fetch net "/api/llm" (llm_init query);
  data ← response_json res;
  emit (SetResults (prepend query data));;
  emit (SetQuery "").

(** The state after React has run one queued update; [Throw] when the update
    function throws while rendering. *)
Definition update (st : state) (ev : effect) : completion state :=
  match ev with
  | SetResults f =>
      match f (results st) with
      | Normal r => Normal {| query := query st; results := r |}
      | Throw e => Throw e
      end
  | SetQuery s => Normal {| query := s; results := results st |}
  | _ => Normal st
  end.

Fixpoint updates (st : state) (l : list effect) : completion state :=
  match l with
  | [] => Normal st
  | ev :: r =>
      match update st ev with
      | Normal st' => updates st' r
      | Throw e => Throw e
      end
  end.

(** What the user does: type into the input ([onChange] calls [setQuery]) or
    submit the form, the request being answered by [net] before the next
    action. *)
Inductive action : Type :=
| Change (value : string)
| Submit (net : network).

Definition step (st : state) (a : action) : completion state :=
  match a with
  | Change v => update st (SetQuery v)
  | Submit net => updates st (calls (askLLM net (query st)))
  end.

Fixpoint run (st : state) (l : list action) : completion state :=
  match l with
  | [] => Normal st
  | a :: r =>
      match step st a with
      | Normal st' => run st' r
      | Throw e => Throw e
      end
  end.

(** [useState('')], [useState([])] *)
Definition initial : state := {| query := ""; results := [] |}.

End Dashboard.

(** The browser talking to the routes above: the request body reaches the
    handler as [req.body] (JSON bodies only; the multipart body of the upload
    page goes through formidable), and what the handler sends comes back.
    When the handler throws before it sends, Next.js answers in its place
    with status 500 and a body of plain text. *)
Definition served (handler : request -> eff call unit) (init : request_init)
  : fetch_outcome :=
  let body :=
    match init_body init with
    | JsonBody v => v
    | FormData _ => JUndefined
    end in
  match sent (handler {| method := init_method init; body := body |}) with
  | Some r => Resolved r
  | None => Resolved {| status := 500; json := None |}
  end.

End Pages.

(** ** Responses and sample inputs of the statements below *)

Import Api.

Definition ok_true : jsval := JObj {[ "ok" := JBool true ]}.
Definition ok_false : jsval := JObj {[ "ok" := JBool false ]}.

(** [res.status(405).end()] *)
Definition method_not_allowed : eff call unit := ([Status 405; End], Normal tt).

(** The body of a successful upload. *)
Definition uploaded (filename : jsval) : jsval :=
  JObj {[ "ok" := JBool true; "filename" := filename ]}.

(** The body of an answer of the LLM stub. *)
Definition answer (text : string) : jsval := JObj {[ "text" := JStr text ]}.

(** A parse that fails on a body that is not multipart and otherwise finds
    one file, report.pdf, in the field file. *)
Definition sample_parse (req : request) : jsval * jsval * jsval :=
  match body req with
  | JStr _ => (JObj {[ "message" := JStr "bad content-type header" ]},
               JUndefined, JUndefined)
  | _ => (JNull, JObj ∅,
          JObj {[ "file" := JObj {[ "originalFilename" := JStr "report.pdf" ]} ]})
  end.

(** A parse that finds a file whose name is empty (a form submitted with
    nothing chosen in its file input). *)
Definition unnamed_parse (req : request) : jsval * jsval * jsval :=
  (JNull, JObj ∅, JObj {[ "file" := JObj {[ "originalFilename" := JStr "" ]} ]}).

(** A parse that finds fields and no file. *)
Definition fields_only_parse (req : request) : jsval * jsval * jsval :=
  (JNull, JObj {[ "note" := JStr "x" ]}, JObj ∅).

Definition post (body : jsval) : request := {| method := "POST"; body := body |}.

Import Pages.

(** Two signup forms with one username and password. *)
Definition asha : Home.form :=
  {| Home.name := "Asha"; Home.age := "41"; Home.username := "asha";
     Home.password := "s3cret"; Home.disease := "diabetes";
     Home.email := "asha@example.org"; Home.phone := "";
     Home.foodHabits := "vegetarian"; Home.gender := "Female" |}.

Definition asha_again : Home.form :=
  {| Home.name := "A. Rao"; Home.age := "42"; Home.username := "asha";
     Home.password := "s3cret"; Home.disease := "";
     Home.email := "rao@example.org"; Home.phone := "555 0100";
     Home.foodHabits := ""; Home.gender := "Other" |}.

(** A network on which every request gets the response [r]. *)
Definition replies (r : response) : network := fun _ _ => Resolved r.

(** The three JSON routes of this repository as the network; a handler that
    throws before it sends is answered for by Next.js, with status 500 and a
    body that is not JSON (see [served]). *)
Definition stub_server (Number_toString : float -> string) : network :=
  fun url init =>
    if String.eqb url "/api/auth/login" then served Login.handler init
    else if String.eqb url "/api/auth/signup" then served Signup.handler init
    else if String.eqb url "/api/llm" then served (Llm.handler Number_toString) init
    else Resolved {| status := 404; json := None |}.

(** An error response that carries JSON, as a gateway or a real inference
    service behind /api/llm sends. *)
Definition failed_reply : response :=
  {| status := 500; json := Some (JObj {[ "error" := JStr "upstream unavailable" ]}) |}.

Definition report : file := {| file_name := "report.pdf"; file_data := "%PDF-1.7" |}.

(** The upload route as the network. The route turns the body parser off
    ([config.api.bodyParser] is [false]), so [req.body] is undefined and the
    multipart body reaches the handler through formidable only. *)
Definition upload_server (form_parse : request -> jsval * jsval * jsval) : network :=
  fun url init =>
    if String.eqb url "/api/upload" then served (Api.Upload.handler form_parse) init
    else Resolved {| status := 404; json := None |}.

(** A network that is down: every [fetch] rejects. *)
Definition offline : network := fun _ _ => Rejected TypeError.

(** The user types each question of [qs] in turn and submits it to [net],
    every answer arriving before the next question is typed. *)
Definition asks (net : network) (qs : list string) : list Dashboard.action :=
  flat_map (fun q => [Dashboard.Change q; Dashboard.Submit net]) qs.

(** The exchange the dashboard lists for the question [q] answered by the
    LLM stub. *)
Definition stub_exchange (q : string) : exchange :=
  {| input := q; output := JStr (Llm.template q) |}.

(** The status codes a handler's calls are checked against. *)
Definition answers_once (codes : list Z) (m : eff call unit) : Prop :=
  (exists l, m = (l, Throw TypeError) /\ sent_from 200 l = None)
  \/ (exists (n : Z) (l : list call) (last : call),
        m = ((l ++ [Status n; last])%list, Normal tt)
        /\ In n codes
        /\ (l = [] \/ l = [FormParse])
        /\ (last = End \/ exists v, last = Json v)).

(** ** Properties of the routes *)

Lemma truthy_str (s : string) : s ≠ "" -> truthy (JStr s) = true.
Proof.
  intros Hs. simpl. destruct (String.eqb_spec s ""); [contradiction | reflexivity].
Qed.

Lemma get_str_object (v : jsval) (k s : string) :
  get v k = JStr s -> exists o, v = JObj o /\ o !! k = Some (JStr s).
Proof.
  destruct v; simpl; try discriminate.
  intros H. exists o. split; [reflexivity |].
  destruct (o !! k); simpl in H; congruence.
Qed.

Lemma get_nullish (v : jsval) (k : string) : nullish v = true -> get v k = JUndefined.
Proof. destruct v; simpl; congruence. Qed.

Lemma get_falsy (v : jsval) (k : string) : truthy v = false -> get v k = JUndefined.
Proof. destruct v; simpl; congruence. Qed.

Lemma truthy_not_nullish (v : jsval) : truthy v = true -> nullish v = false.
Proof. destruct v; simpl; congruence. Qed.

Lemma is_post_true (req : request) : method req = "POST" -> is_post req = true.
Proof. intros H. unfold is_post. rewrite H. reflexivity. Qed.

Lemma is_post_false (req : request) : method req ≠ "POST" -> is_post req = false.
Proof.
  intros H. unfold is_post. destruct (String.eqb_spec (method req) "POST"); congruence.
Qed.

#[local] Arguments truthy : simpl never.
#[local] Arguments get : simpl never.

(** Unfolds the monad, so that a handler applied to a request whose method
    and body are known computes to its calls and completion. *)
Ltac run_handler :=
  unfold Login.handler, Signup.handler, Api.Upload.handler, Api.Upload.parse,
    Llm.handler, Llm.interpolate, res_status, Api.res_json, res_end,
    prop, prop_opt, js_and, js_or, mbind, eff_bind, bind, emit, throw, ret, sent, calls;
  simpl.

(** What the signup handler answers to a POST is a function of the two
    fields it reads. *)
Lemma signup_post (req : request) :
  is_post req = true ->
  Signup.handler req =
    if truthy (get (body req) "username") && truthy (get (body req) "password")
    then ([Status 200; Json ok_true], Normal tt)
    else ([Status 400; Json ok_false], Normal tt).
Proof.
  intros Hm. unfold Signup.handler, prop. rewrite Hm.
  destruct req as [m b]. simpl negb. cbn iota zeta beta. cbn [body].
  run_handler.
  destruct (truthy b) eqn:Hv; simpl.
  - rewrite (truthy_not_nullish _ Hv). simpl.
    destruct (truthy (get b "username")) eqn:Hu; simpl.
    + destruct (truthy (get b "password")); reflexivity.
    + rewrite Hu. reflexivity.
  - rewrite Hv, (get_falsy _ "username" Hv). reflexivity.
Qed.

(** The login handler answers the same way when the body is neither
    [undefined] nor [null]. *)
Lemma login_post (req : request) :
  is_post req = true ->
  nullish (body req) = false ->
  Login.handler req =
    if truthy (get (body req) "username") && truthy (get (body req) "password")
    then ([Status 200; Json ok_true], Normal tt)
    else ([Status 400; Json ok_false], Normal tt).
Proof.
  intros Hm Hn. unfold Login.handler, prop. rewrite Hm, Hn.
  destruct req as [m b]. simpl negb. cbn iota zeta beta. cbn [body].
  run_handler.
  destruct (truthy (get b "username")) eqn:Hu; simpl.
  - destruct (truthy (get b "password")); reflexivity.
  - rewrite Hu. reflexivity.
Qed.

(** C1. A POST to /api/auth/login or /api/auth/signup whose body holds
    non-empty strings under username and password is answered with status
    200 and the body {ok:true}. *)
Theorem auth_accepts_credentials (req : request) (u p : string) :
  method req = "POST" ->
  get (body req) "username" = JStr u ->
  get (body req) "password" = JStr p ->
  u ≠ "" -> p ≠ "" ->
  Login.handler req = ([Status 200; Json ok_true], Normal tt)
  /\ Signup.handler req = ([Status 200; Json ok_true], Normal tt)
  /\ sent (Login.handler req) = Some {| status := 200; json := Some ok_true |}
  /\ sent (Signup.handler req) = Some {| status := 200; json := Some ok_true |}.
Proof.
  intros Hm Hu Hp Hu' Hp'.
  destruct (get_str_object _ _ _ Hu) as (o & Hb & _).
  assert (Hn : nullish (body req) = false) by (rewrite Hb; reflexivity).
  rewrite (signup_post _ (is_post_true _ Hm)).
  rewrite (login_post _ (is_post_true _ Hm) Hn).
  rewrite Hu, Hp, (truthy_str _ Hu'), (truthy_str _ Hp').
  repeat split.
Qed.

Lemma auth_accepts_credentials_witness :
  Login.handler
    {| method := "POST";
       body := JObj {[ "username" := JStr "asha"; "password" := JStr "s3cret" ]} |}
  = ([Status 200; Json ok_true], Normal tt).
Proof.
  refine (proj1 (auth_accepts_credentials _ "asha" "s3cret" _ _ _ _ _));
    first [ reflexivity | discriminate ].
Defined.

(** C2, at the input where the login handler departs from it: on a POST
    whose body is [null] the destructuring of [req.body] throws before any
    call on [res], where the signup handler, which guards with [body &&],
    answers 400 {ok:false}. *)
Theorem login_null_body_throws :
  Login.handler (post JNull) = ([], Throw TypeError)
  /\ sent (Login.handler (post JNull)) = None
  /\ Signup.handler (post JNull) = ([Status 400; Json ok_false], Normal tt).
Proof. repeat split. Qed.

(** X1. The part of C2 that holds of the signup handler: any body. *)
Lemma signup_rejects_missing (req : request) :
  method req = "POST" ->
  get (body req) "username" = JUndefined \/ get (body req) "password" = JUndefined ->
  Signup.handler req = ([Status 400; Json ok_false], Normal tt).
Proof.
  intros Hm H. rewrite (signup_post _ (is_post_true _ Hm)).
  destruct H as [-> | ->]; [reflexivity |].
  rewrite andb_comm. reflexivity.
Qed.

Lemma signup_rejects_missing_witness :
  Signup.handler (post (JObj {[ "username" := JStr "asha" ]}))
  = ([Status 400; Json ok_false], Normal tt).
Proof.
  apply signup_rejects_missing; [reflexivity | right; reflexivity].
Defined.

(** X2. The part of C2 that holds of the login handler: a body that is neither
    [undefined] nor [null]. *)
Lemma login_rejects_missing (req : request) :
  method req = "POST" ->
  nullish (body req) = false ->
  get (body req) "username" = JUndefined \/ get (body req) "password" = JUndefined ->
  Login.handler req = ([Status 400; Json ok_false], Normal tt).
Proof.
  intros Hm Hn H. rewrite (login_post _ (is_post_true _ Hm) Hn).
  destruct H as [-> | ->]; [reflexivity |].
  rewrite andb_comm. reflexivity.
Qed.

Lemma login_rejects_missing_witness :
  Login.handler (post (JStr "")) = ([Status 400; Json ok_false], Normal tt).
Proof.
  apply login_rejects_missing; [reflexivity | reflexivity | left; reflexivity].
Defined.

(** C3. A request whose method is not POST is answered by each of the four
    handlers with [res.status(405).end()] and nothing else: status 405, no
    body, no parse of the form, no read of the request body. *)
Theorem non_post_is_rejected
    (form_parse : request -> jsval * jsval * jsval)
    (Number_toString : float -> string) (req : request) :
  method req ≠ "POST" ->
  Login.handler req = method_not_allowed
  /\ Signup.handler req = method_not_allowed
  /\ Api.Upload.handler form_parse req = method_not_allowed
  /\ Llm.handler Number_toString req = method_not_allowed
  /\ sent method_not_allowed = Some {| status := 405; json := None |}.
Proof.
  intros Hm. apply is_post_false in Hm.
  unfold Login.handler, Signup.handler, Api.Upload.handler, Llm.handler.
  rewrite Hm. repeat split.
Qed.

Lemma non_post_is_rejected_witness :
  Login.handler {| method := "GET"; body := JNull |} = method_not_allowed.
Proof.
  refine (proj1 (non_post_is_rejected sample_parse (fun _ => "0")
                   {| method := "GET"; body := JNull |} _)).
  discriminate.
Defined.

(** C4. A POST to /api/llm whose body holds the string [p] under prompt is
    answered with status 200 and the body {text}, where text is [p] between a
    fixed prefix and a fixed suffix; and whatever the body of a POST, the
    handler either throws before it calls [res] or answers with status 200. *)
Theorem llm_echoes_prompt
    (Number_toString : float -> string) (req req' : request) (p : string) :
  method req = "POST" ->
  get (body req) "prompt" = JStr p ->
  method req' = "POST" ->
  Llm.handler Number_toString req = ([Status 200; Json (answer (Llm.template p))], Normal tt)
  /\ sent (Llm.handler Number_toString req)
     = Some {| status := 200; json := Some (answer (Llm.template p)) |}
  /\ Llm.template p
     = ("Simulated LLM answer for prompt: " ++ dquote) ++ p
       ++ (dquote ++ newline ++ newline
           ++ "(Replace /api/llm with your real LLM integration.)")
  /\ (Llm.handler Number_toString req' = ([], Throw TypeError)
      \/ exists t, Llm.handler Number_toString req'
                   = ([Status 200; Json (answer t)], Normal tt)).
Proof.
  intros Hm Hp Hm'.
  destruct (get_str_object _ _ _ Hp) as (o & Hb & _).
  unfold Llm.handler.
  rewrite (is_post_true _ Hm), (is_post_true _ Hm').
  destruct req as [m b], req' as [m' b']. simpl in Hb, Hp. subst b.
  run_handler. rewrite Hp. simpl.
  repeat split.
  destruct (nullish b'); [left; reflexivity |].
  destruct (to_string Number_toString (get b' "prompt")) as [t | ];
    [right; exists (Llm.template t) | left]; reflexivity.
Qed.

Lemma llm_echoes_prompt_witness :
  Llm.handler (fun _ => "0") (post (JObj {[ "prompt" := JStr "Is my HbA1c normal?" ]}))
  = ([Status 200; Json (answer (Llm.template "Is my HbA1c normal?"))], Normal tt).
Proof.
  refine (proj1 (llm_echoes_prompt (fun _ => "0") _ (post (JArr [])) "Is my HbA1c normal?" _ _ _));
    reflexivity.
Defined.

(** What the upload handler does with a POST, by what formidable hands to
    the callback. *)
Lemma upload_post (form_parse : request -> jsval * jsval * jsval)
    (req : request) (err fields files : jsval) :
  method req = "POST" ->
  form_parse req = (err, fields, files) ->
  Api.Upload.handler form_parse req =
    if truthy err then ([FormParse; Status 500; End], Normal tt)
    else if nullish files then ([FormParse], Throw TypeError)
    else ([FormParse; Status 200;
           Json (uploaded (js_or (if nullish (get files "file") then JUndefined
                                  else get (get files "file") "originalFilename")
                                 JNull))],
          Normal tt).
Proof.
  intros Hm Hp. unfold Api.Upload.handler, Api.Upload.parse.
  rewrite (is_post_true _ Hm). run_handler. rewrite Hp.
  destruct (truthy err); [reflexivity |].
  destruct (nullish files); [reflexivity |]. simpl.
  destruct (nullish (get files "file")); reflexivity.
Qed.

(** C5 as stated fails on a file whose original name is the empty string:
    the body says filename:null, not the name. *)
Lemma upload_empty_name_is_null :
  get (get (unnamed_parse (post JUndefined)).2 "file") "originalFilename" = JStr ""
  /\ sent (Api.Upload.handler unnamed_parse (post JUndefined))
     = Some {| status := 200; json := Some (uploaded JNull) |}
  /\ sent (Api.Upload.handler unnamed_parse (post JUndefined))
     ≠ Some {| status := 200; json := Some (uploaded (JStr "")) |}.
Proof.
  split; [reflexivity |]. split; [reflexivity |].
  intros H.
  apply (f_equal (fun r : option response =>
                    match r with
                    | Some {| json := Some v |} => get v "filename"
                    | _ => JUndefined
                    end)) in H.
  vm_compute in H. discriminate.
Qed.

(** C5, amended. A POST to /api/upload whose parse fails is answered with
    status 500 and no body; one whose parse succeeds and finds, in the field
    file, a file whose original name [N] is not empty is answered with status
    200 and the body {ok:true, filename:N}. *)
Theorem upload_reports_filename
    (form_parse : request -> jsval * jsval * jsval)
    (bad good : request) (err fields files err' fields' files' : jsval)
    (N : string) :
  method bad = "POST" ->
  form_parse bad = (err, fields, files) ->
  truthy err = true ->
  method good = "POST" ->
  form_parse good = (err', fields', files') ->
  truthy err' = false ->
  get (get files' "file") "originalFilename" = JStr N ->
  N ≠ "" ->
  Api.Upload.handler form_parse bad = ([FormParse; Status 500; End], Normal tt)
  /\ sent (Api.Upload.handler form_parse bad) = Some {| status := 500; json := None |}
  /\ Api.Upload.handler form_parse good
     = ([FormParse; Status 200; Json (uploaded (JStr N))], Normal tt)
  /\ sent (Api.Upload.handler form_parse good)
     = Some {| status := 200; json := Some (uploaded (JStr N)) |}.
Proof.
  intros Hm Hp He Hm' Hp' He' Hn HN.
  rewrite (upload_post _ _ _ _ _ Hm Hp), (upload_post _ _ _ _ _ Hm' Hp'), He, He'.
  destruct (get_str_object _ _ _ Hn) as (f & Hf & _).
  assert (Hfiles : nullish files' = false).
  { destruct files'; try reflexivity; discriminate Hf. }
  rewrite Hfiles, Hn, Hf. simpl nullish. cbn iota.
  unfold js_or. rewrite (truthy_str _ HN).
  repeat split.
Qed.

Lemma upload_reports_filename_witness :
  Api.Upload.handler sample_parse (post JUndefined)
  = ([FormParse; Status 200; Json (uploaded (JStr "report.pdf"))], Normal tt).
Proof.
  refine (proj1 (proj2 (proj2
    (upload_reports_filename sample_parse (post (JStr "not multipart")) (post JUndefined)
       _ _ _ _ _ _ "report.pdf" _ _ _ _ _ _ _ _))));
    first [ reflexivity | discriminate ].
Defined.

(** C9. A POST to /api/upload whose parse succeeds and finds no field named
    file is answered with status 200 and the body {ok:true, filename:null}. *)
Theorem upload_without_file
    (form_parse : request -> jsval * jsval * jsval)
    (req : request) (err fields : jsval) (files : gmap string jsval) :
  method req = "POST" ->
  form_parse req = (err, fields, JObj files) ->
  truthy err = false ->
  files !! "file" = None ->
  Api.Upload.handler form_parse req
  = ([FormParse; Status 200; Json (uploaded JNull)], Normal tt)
  /\ sent (Api.Upload.handler form_parse req)
     = Some {| status := 200; json := Some (uploaded JNull) |}.
Proof.
  intros Hm Hp He Hf.
  rewrite (upload_post _ _ _ _ _ Hm Hp), He.
  unfold get. rewrite Hf. split; reflexivity.
Qed.

Lemma upload_without_file_witness :
  Api.Upload.handler fields_only_parse (post JUndefined)
  = ([FormParse; Status 200; Json (uploaded JNull)], Normal tt).
Proof.
  refine (proj1 (upload_without_file fields_only_parse (post JUndefined) _ _ _ _ _ _ _));
    reflexivity.
Defined.

(** C10. The signup handler reads nothing of a request but its method and
    the username and password of its body: two requests with one method,
    whose bodies agree on these two fields, get the same calls on [res]. *)
Theorem signup_reads_credentials_only (m : string) (b1 b2 : jsval) :
  get b1 "username" = get b2 "username" ->
  get b1 "password" = get b2 "password" ->
  Signup.handler {| method := m; body := b1 |}
  = Signup.handler {| method := m; body := b2 |}.
Proof.
  intros Hu Hp.
  destruct (is_post {| method := m; body := b1 |}) eqn:Hm.
  - rewrite !signup_post by exact Hm. simpl body. rewrite Hu, Hp. reflexivity.
  - unfold Signup.handler.
    change (is_post {| method := m; body := b2 |}) with (is_post {| method := m; body := b1 |}).
    rewrite Hm. reflexivity.
Qed.

Lemma signup_reads_credentials_only_witness :
  Signup.handler (post (Home.form_json asha))
  = Signup.handler (post (Home.form_json asha_again)).
Proof.
  apply (signup_reads_credentials_only "POST"); reflexivity.
Defined.

(** ** Properties of the pages *)

Ltac run_page :=
  unfold Home.onSubmit, Home.handleLogin, Home.handleSignup, Pages.Upload.submit,
    Dashboard.askLLM, fetch, response_json,
    mbind, eff_bind, bind, emit, throw, ret, calls;
  simpl.

(** One submit of the dashboard form, when the response can be read as JSON
    and is not [null]: the exchange goes in front and the input is cleared. *)
Lemma submit_prepends (st : Dashboard.state) (net : network) (r : response) (d : jsval) :
  net "/api/llm" (Dashboard.llm_init (Dashboard.query st)) = Resolved r ->
  json r = Some d ->
  nullish d = false ->
  Dashboard.step st (Dashboard.Submit net)
  = Normal {| Dashboard.query := "";
              Dashboard.results :=
                {| input := Dashboard.query st; output := get d "text" |}
                :: Dashboard.results st |}.
Proof.
  intros Hnet Hj Hd. unfold Dashboard.step. run_page.
  rewrite Hnet. simpl. rewrite Hj. simpl.
  unfold Dashboard.prepend. rewrite Hd. reflexivity.
Qed.

(** X3. One submit whose response cannot be read as JSON: [res.json()] rejects
    and no setter is called. *)
Lemma submit_unreadable (st : Dashboard.state) (net : network) (r : response) :
  net "/api/llm" (Dashboard.llm_init (Dashboard.query st)) = Resolved r ->
  json r = None ->
  Dashboard.step st (Dashboard.Submit net) = Normal st.
Proof.
  intros Hnet Hj. unfold Dashboard.step. run_page.
  rewrite Hnet. simpl. rewrite Hj. reflexivity.
Qed.

Lemma submit_unreadable_witness :
  Dashboard.step {| Dashboard.query := "A"; Dashboard.results := [] |}
    (Dashboard.Submit (replies {| status := 500; json := None |}))
  = Normal {| Dashboard.query := "A"; Dashboard.results := [] |}.
Proof.
  apply (submit_unreadable _ _ {| status := 500; json := None |}); reflexivity.
Defined.

Lemma run_cons (st : Dashboard.state) (a : Dashboard.action) (l : list Dashboard.action) :
  Dashboard.run st (a :: l)
  = match Dashboard.step st a with
    | Normal st' => Dashboard.run st' l
    | Throw e => Throw e
    end.
Proof. reflexivity. Qed.

Lemma step_change (st : Dashboard.state) (v : string) :
  Dashboard.step st (Dashboard.Change v)
  = Normal {| Dashboard.query := v; Dashboard.results := Dashboard.results st |}.
Proof. reflexivity. Qed.

(** C6. The dashboard list is newest first: from any list, typing [a],
    submitting, and after the answer typing [b] and submitting puts the
    exchange of [b] first, that of [a] second, and the earlier ones after
    them; from the empty list, [A] then [B] gives the list of B, A. *)
Theorem dashboard_newest_first
    (st : Dashboard.state) (a b : string) (net1 net2 : network)
    (r1 r2 : response) (d1 d2 : jsval) :
  net1 "/api/llm" (Dashboard.llm_init a) = Resolved r1 ->
  json r1 = Some d1 -> nullish d1 = false ->
  net2 "/api/llm" (Dashboard.llm_init b) = Resolved r2 ->
  json r2 = Some d2 -> nullish d2 = false ->
  Dashboard.run st
    [Dashboard.Change a; Dashboard.Submit net1;
     Dashboard.Change b; Dashboard.Submit net2]
  = Normal {| Dashboard.query := "";
              Dashboard.results :=
                {| input := b; output := get d2 "text" |}
                :: {| input := a; output := get d1 "text" |}
                :: Dashboard.results st |}.
Proof.
  intros H1 J1 N1 H2 J2 N2.
  rewrite run_cons, step_change, run_cons.
  rewrite (submit_prepends _ net1 r1 d1) by assumption.
  rewrite run_cons, step_change, run_cons.
  rewrite (submit_prepends _ net2 r2 d2) by assumption.
  reflexivity.
Qed.

Lemma dashboard_newest_first_witness :
  Dashboard.run Dashboard.initial
    [Dashboard.Change "A"; Dashboard.Submit (stub_server (fun _ => "0"));
     Dashboard.Change "B"; Dashboard.Submit (stub_server (fun _ => "0"))]
  = Normal {| Dashboard.query := "";
              Dashboard.results :=
                [ {| input := "B"; output := JStr (Llm.template "B") |};
                  {| input := "A"; output := JStr (Llm.template "A") |} ] |}.
Proof.
  refine (dashboard_newest_first Dashboard.initial "A" "B"
            (stub_server (fun _ => "0")) (stub_server (fun _ => "0"))
            {| status := 200; json := Some (answer (Llm.template "A")) |}
            {| status := 200; json := Some (answer (Llm.template "B")) |}
            (answer (Llm.template "A")) (answer (Llm.template "B"))
            _ _ _ _ _ _);
    reflexivity.
Defined.

(** C7, at the input where the dashboard departs from it: on an answer whose
    status is 500 and whose body is JSON, [askLLM], which never reads
    [res.ok], puts an exchange with an undefined output in the list, where
    the handler of the home page tests [res.ok] and alerts. *)
Theorem dashboard_lists_failed_query :
  ok failed_reply = false
  /\ Dashboard.run Dashboard.initial
       [Dashboard.Change "A"; Dashboard.Submit (replies failed_reply)]
     = Normal {| Dashboard.query := "";
                 Dashboard.results := [ {| input := "A"; output := JUndefined |} ] |}
  /\ calls (Home.handleLogin (replies failed_reply) asha)
     = [PreventDefault; Fetch "/api/auth/login" (Home.login_init asha);
        Alert "Login failed"].
Proof. repeat split. Qed.

(** C8. A submit of the home page, in login or in signup mode, and a submit
    of the upload page with a file chosen, send one request; when its response
    has a success status the page goes to /dashboard (the upload page after
    an alert), otherwise it alerts and does not navigate. A submit of the
    upload page with no file chosen alerts and sends nothing. *)
Theorem submit_navigates_on_success
    (net : network) (form : Home.form) (f : file) (r_login r_signup r_upload : response) :
  net "/api/auth/login" (Home.login_init form) = Resolved r_login ->
  net "/api/auth/signup" (Home.signup_init form) = Resolved r_signup ->
  net "/api/upload" (Pages.Upload.upload_init f) = Resolved r_upload ->
  calls (Home.onSubmit false net form)
  = ([PreventDefault; Fetch "/api/auth/login" (Home.login_init form)]
     ++ (if ok r_login then [RouterPush "/dashboard"] else [Alert "Login failed"]))%list
  /\ calls (Home.onSubmit true net form)
     = ([PreventDefault; Fetch "/api/auth/signup" (Home.signup_init form)]
        ++ (if ok r_signup then [RouterPush "/dashboard"] else [Alert "Sign up failed"]))%list
  /\ calls (Pages.Upload.submit net (Some f))
     = ([PreventDefault; Fetch "/api/upload" (Pages.Upload.upload_init f)]
        ++ (if ok r_upload then [Alert "Uploaded"; RouterPush "/dashboard"]
            else [Alert "Upload failed"]))%list
  /\ calls (Pages.Upload.submit net None) = [PreventDefault; Alert "Choose a PDF"].
Proof.
  intros Hl Hs Hu. run_page. rewrite Hl, Hs, Hu. simpl.
  destruct (ok r_login), (ok r_signup), (ok r_upload); repeat split.
Qed.

Lemma submit_navigates_on_success_witness :
  calls (Home.onSubmit false (stub_server (fun _ => "0")) asha)
  = [PreventDefault; Fetch "/api/auth/login" (Home.login_init asha);
     RouterPush "/dashboard"].
Proof.
  refine (proj1 (submit_navigates_on_success (stub_server (fun _ => "0")) asha report
                   {| status := 200; json := Some ok_true |}
                   {| status := 200; json := Some ok_true |}
                   {| status := 404; json := None |} _ _ _));
    reflexivity.
Defined.

(** X4. The login form against the login stub: the page goes to the dashboard
    exactly when neither the username nor the password is empty. *)
Lemma login_page_against_stub (Number_toString : float -> string) (f : Home.form) :
  calls (Home.handleLogin (stub_server Number_toString) f)
  = [PreventDefault; Fetch "/api/auth/login" (Home.login_init f);
     if negb (String.eqb (Home.username f) "") && negb (String.eqb (Home.password f) "")
     then RouterPush "/dashboard" else Alert "Login failed"].
Proof.
  unfold Home.handleLogin, fetch, stub_server.
  change (String.eqb "/api/auth/login" "/api/auth/login") with true. cbn iota.
  unfold served. cbn [init_body init_method Home.login_init].
  rewrite login_post by reflexivity. cbn [body].
  change (get _ "username") with (JStr (Home.username f)).
  change (get _ "password") with (JStr (Home.password f)).
  change (truthy (JStr ?s)) with (negb (String.eqb s "")).
  destruct (negb (String.eqb (Home.username f) "") && negb (String.eqb (Home.password f) ""));
    reflexivity.
Qed.

(** ** Further properties of the routes *)

Lemma is_post_method (req : request) : is_post req = true -> method req = "POST".
Proof. unfold is_post. intros H. apply String.eqb_eq. exact H. Qed.

(** X5. The two auth handlers test truthiness and nothing else: on a POST whose
    body is neither [null] nor [undefined] the answer is 200 {ok:true} when
    the username and the password are both truthy, of whatever type, and
    400 {ok:false} when one of them is falsy, missing or not (the empty
    string, [0], [false], [null]). *)
Theorem auth_checks_truthiness_only (req : request) :
  method req = "POST" ->
  nullish (body req) = false ->
  let accepted :=
    truthy (get (body req) "username") && truthy (get (body req) "password") in
  sent (Login.handler req)
  = Some {| status := if accepted then 200 else 400;
            json := Some (JObj {[ "ok" := JBool accepted ]}) |}
  /\ sent (Signup.handler req)
     = Some {| status := if accepted then 200 else 400;
               json := Some (JObj {[ "ok" := JBool accepted ]}) |}.
Proof.
  intros Hm Hn accepted.
  rewrite (login_post _ (is_post_true _ Hm) Hn), (signup_post _ (is_post_true _ Hm)).
  fold accepted. destruct accepted; split; reflexivity.
Qed.

Lemma auth_checks_truthiness_only_witness :
  sent (Login.handler (post (JObj {[ "username" := JNum 7%float; "password" := JArr [] ]})))
  = Some {| status := 200; json := Some ok_true |}
  /\ sent (Signup.handler (post (JObj {[ "username" := JStr ""; "password" := JStr "x" ]})))
     = Some {| status := 400; json := Some ok_false |}.
Proof.
  split.
  - exact (proj1 (auth_checks_truthiness_only
            (post (JObj {[ "username" := JNum 7%float; "password" := JArr [] ]}))
            eq_refl eq_refl)).
  - exact (proj2 (auth_checks_truthiness_only
            (post (JObj {[ "username" := JStr ""; "password" := JStr "x" ]}))
            eq_refl eq_refl)).
Defined.

(** X6. The login and the signup handler make the same calls on every request,
    of any method, whose body is neither [null] nor [undefined]. *)
Theorem login_signup_agree (req : request) :
  nullish (body req) = false ->
  Login.handler req = Signup.handler req.
Proof.
  intros Hn. destruct (is_post req) eqn:Hm.
  - rewrite (login_post _ Hm Hn), (signup_post _ Hm). reflexivity.
  - unfold Login.handler, Signup.handler. rewrite Hm. reflexivity.
Qed.

Lemma login_signup_agree_witness :
  Login.handler (post (Home.form_json asha)) = Signup.handler (post (Home.form_json asha)).
Proof. apply login_signup_agree. reflexivity. Defined.

(** X7. Every handler, on every request, either throws a TypeError before it
    has sent anything or sets one status and then sends once, with [json] or
    [end]; the upload handler alone parses the form, and before it answers.
    The statuses are 200, 400, 405 for the auth handlers, 200, 500, 405 for
    the upload handler and 200, 405 for the LLM handler; the signup handler
    never throws. *)
Theorem handlers_answer_once
    (form_parse : request -> jsval * jsval * jsval)
    (Number_toString : float -> string) (req : request) :
  answers_once [200; 400; 405] (Login.handler req)
  /\ answers_once [200; 400; 405] (Signup.handler req)
  /\ answers_once [200; 500; 405] (Api.Upload.handler form_parse req)
  /\ answers_once [200; 405] (Llm.handler Number_toString req)
  /\ (exists r, sent (Signup.handler req) = Some r).
Proof.
  assert (Hend : forall n : Z, forall codes, In n codes ->
            answers_once codes ([Status n; End], Normal tt)).
  { intros n codes Hin. right. exists n, [], End.
    split; [reflexivity | split; [assumption | split; left; reflexivity]]. }
  assert (Hjson : forall (n : Z) v codes, In n codes ->
            answers_once codes ([Status n; Json v], Normal tt)).
  { intros n v codes Hin. right. exists n, [], (Json v).
    split; [reflexivity | split; [assumption | split; [left; reflexivity |]]].
    right. exists v. reflexivity. }
  destruct (is_post req) eqn:Hm.
  - split; [| split; [| split; [| split]]].
    + destruct (nullish (body req)) eqn:Hn.
      * left. exists []. unfold Login.handler, prop. rewrite Hm, Hn. split; reflexivity.
      * rewrite (login_post _ Hm Hn).
        destruct (_ && _); apply Hjson; simpl; auto.
    + rewrite (signup_post _ Hm). destruct (_ && _); apply Hjson; simpl; auto.
    + destruct (form_parse req) as [[err fields] files] eqn:Hp.
      rewrite (upload_post _ _ _ _ _ (is_post_method _ Hm) Hp).
      destruct (truthy err).
      { right. exists 500, [FormParse], End.
        split; [reflexivity | split; [simpl; auto | split; [right | left]; reflexivity]]. }
      destruct (nullish files).
      { left. exists [FormParse]. split; reflexivity. }
      right. eexists 200, [FormParse], (Json _).
      split; [reflexivity | split; [simpl; auto | split; [right; reflexivity |]]].
      right. eexists. reflexivity.
    + unfold Llm.handler. rewrite Hm. destruct req as [m b]. run_handler.
      destruct (nullish b); simpl.
      { left. exists []. split; reflexivity. }
      destruct (to_string Number_toString (get b "prompt")); simpl.
      * apply Hjson. simpl. auto.
      * left. exists []. split; reflexivity.
    + rewrite (signup_post _ Hm). destruct (_ && _); eexists; reflexivity.
  - unfold Login.handler, Signup.handler, Api.Upload.handler, Llm.handler.
    rewrite Hm. simpl negb. cbn iota.
    repeat split; try (apply Hend; simpl; auto).
    eexists; reflexivity.
Qed.

Lemma llm_missing_prompt_request (Number_toString : float -> string) (req : request) (s : string) :
  method req = "POST" ->
  nullish (body req) = false ->
  to_string Number_toString (get (body req) "prompt") = Some s ->
  Llm.handler Number_toString req = ([Status 200; Json (answer (Llm.template s))], Normal tt).
Proof.
  intros Hm Hn Hs. unfold Llm.handler. rewrite (is_post_true _ Hm).
  destruct req as [m b]. simpl in Hn, Hs. run_handler. rewrite Hn. simpl.
  rewrite Hs. reflexivity.
Qed.

(** X8. A POST to /api/llm whose body has no prompt (an empty object, a string,
    a number) is not an error: the answer is 200 and its text is built around
    the word undefined. *)
Theorem llm_missing_prompt (Number_toString : float -> string) (req : request) :
  method req = "POST" ->
  nullish (body req) = false ->
  get (body req) "prompt" = JUndefined ->
  Llm.handler Number_toString req
  = ([Status 200; Json (answer (Llm.template "undefined"))], Normal tt)
  /\ sent (Llm.handler Number_toString req)
     = Some {| status := 200; json := Some (answer (Llm.template "undefined")) |}.
Proof.
  intros Hm Hn Hp.
  rewrite (llm_missing_prompt_request Number_toString req "undefined" Hm Hn).
  - split; reflexivity.
  - rewrite Hp. reflexivity.
Qed.

Lemma llm_missing_prompt_witness :
  Llm.handler (fun _ => "0") (post (JObj ∅))
  = ([Status 200; Json (answer (Llm.template "undefined"))], Normal tt).
Proof.
  refine (proj1 (llm_missing_prompt (fun _ => "0") (post (JObj ∅)) _ _ _)); reflexivity.
Defined.

Lemma list_ascii_of_string_app (s t : string) :
  list_ascii_of_string (s ++ t)
  = (list_ascii_of_string s ++ list_ascii_of_string t)%list.
Proof.
  induction s as [ | a s IH ]; [reflexivity |].
  change (String a s ++ t) with (String a (s ++ t)).
  simpl. rewrite IH. reflexivity.
Qed.

Lemma string_app_inv_tail (s t u : string) : s ++ u = t ++ u -> s = t.
Proof.
  intros H. apply (f_equal list_ascii_of_string) in H.
  rewrite !list_ascii_of_string_app in H. apply app_inv_tail in H.
  apply (f_equal string_of_list_ascii) in H.
  rewrite !string_of_list_ascii_of_string in H. exact H.
Qed.

(** X9. The text of the LLM stub determines the prompt: two prompts that get
    the same text are the same string. *)
Theorem template_injective (p q : string) :
  Llm.template p = Llm.template q <-> p = q.
Proof.
  split; [| intros ->; reflexivity].
  unfold Llm.template. intros H.
  apply (inj (String.append _)) in H.
  apply (inj (String.append _)) in H.
  apply string_app_inv_tail in H. exact H.
Qed.

(** X10. The filename that a successful upload reports is never a falsy value
    other than [null]: it is the originalFilename of [files.file] when that
    is an object holding a truthy one, and [null] in every other case (no
    field named file, an array of files, a name that is empty). The fields of
    the form play no part. *)
Theorem upload_filename_shape
    (form_parse : request -> jsval * jsval * jsval)
    (req : request) (err fields files : jsval) :
  method req = "POST" ->
  form_parse req = (err, fields, files) ->
  truthy err = false ->
  nullish files = false ->
  exists v,
    Api.Upload.handler form_parse req
    = ([FormParse; Status 200; Json (uploaded v)], Normal tt)
    /\ (v = JNull
        \/ truthy v = true
           /\ exists o, get files "file" = JObj o /\ o !! "originalFilename" = Some v).
Proof.
  intros Hm Hp He Hn.
  rewrite (upload_post _ _ _ _ _ Hm Hp), He, Hn.
  eexists. split; [reflexivity |].
  unfold js_or.
  destruct (nullish (get files "file")) eqn:Hf; [left; reflexivity |].
  destruct (truthy (get (get files "file") "originalFilename")) eqn:Ht;
    [| left; reflexivity].
  right. split; [exact Ht |].
  destruct (get files "file") as [ | | | | | | o ]; try discriminate Ht.
  exists o. split; [reflexivity |].
  unfold get in Ht |- *. destruct (o !! "originalFilename"); [reflexivity | discriminate Ht].
Qed.

Lemma upload_filename_shape_witness :
  exists v,
    Api.Upload.handler sample_parse (post JUndefined)
    = ([FormParse; Status 200; Json (uploaded v)], Normal tt)
    /\ (v = JNull
        \/ truthy v = true
           /\ exists o, get (JObj {[ "file" := JObj {[ "originalFilename" := JStr "report.pdf" ]} ]}) "file" = JObj o
                        /\ o !! "originalFilename" = Some v).
Proof.
  exact (upload_filename_shape sample_parse (post JUndefined) _ _ _ eq_refl eq_refl eq_refl eq_refl).
Defined.

(** ** Further properties of the pages *)

(** X11. When [fetch] rejects (the network is down), no page alerts, navigates or
    changes its state: each handler has prevented the default, made its one
    request, and ends with the rejection, which nothing catches. *)
Theorem pages_on_rejected_fetch
    (net : network) (form : Home.form) (f : file) (query : string) (e : error) :
  net "/api/auth/login" (Home.login_init form) = Rejected e ->
  net "/api/auth/signup" (Home.signup_init form) = Rejected e ->
  net "/api/upload" (Pages.Upload.upload_init f) = Rejected e ->
  net "/api/llm" (Dashboard.llm_init query) = Rejected e ->
  Home.handleLogin net form
  = ([PreventDefault; Fetch "/api/auth/login" (Home.login_init form)], Throw e)
  /\ Home.handleSignup net form
     = ([PreventDefault; Fetch "/api/auth/signup" (Home.signup_init form)], Throw e)
  /\ Pages.Upload.submit net (Some f)
     = ([PreventDefault; Fetch "/api/upload" (Pages.Upload.upload_init f)], Throw e)
  /\ Dashboard.askLLM net query
     = ([PreventDefault; Fetch "/api/llm" (Dashboard.llm_init query)], Throw e)
  /\ forall results,
       Dashboard.step {| Dashboard.query := query; Dashboard.results := results |}
         (Dashboard.Submit net)
       = Normal {| Dashboard.query := query; Dashboard.results := results |}.
Proof.
  intros Hl Hs Hu Ha. unfold Dashboard.step. run_page.
  rewrite Hl, Hs, Hu, Ha. repeat split.
Qed.

Lemma pages_on_rejected_fetch_witness :
  Home.handleLogin offline asha
  = ([PreventDefault; Fetch "/api/auth/login" (Home.login_init asha)], Throw TypeError).
Proof.
  refine (proj1 (pages_on_rejected_fetch offline asha report "A" TypeError _ _ _ _));
    reflexivity.
Defined.

Lemma stub_answers (Number_toString : float -> string) (q : string) :
  stub_server Number_toString "/api/llm" (Dashboard.llm_init q)
  = Resolved {| status := 200; json := Some (answer (Llm.template q)) |}.
Proof. reflexivity. Qed.

Lemma run_app (st : Dashboard.state) (l1 l2 : list Dashboard.action) :
  Dashboard.run st (l1 ++ l2)%list
  = match Dashboard.run st l1 with
    | Normal st' => Dashboard.run st' l2
    | Throw e => Throw e
    end.
Proof.
  revert st. induction l1 as [ | a l1 IH ]; intros st; [reflexivity |].
  simpl. destruct (Dashboard.step st a); [apply IH | reflexivity].
Qed.

(** X12. The dashboard against the LLM stub: after the questions [qs] have been
    asked one after the other, the list shows one exchange per question, the
    last question first, each with the text of the stub for it, followed by
    what the list held before; no question is refused, the empty one
    included. *)
Theorem dashboard_history_against_stub
    (Number_toString : float -> string) (st : Dashboard.state) (qs : list string) :
  Dashboard.run st (asks (stub_server Number_toString) qs)
  = Normal {| Dashboard.query := match qs with [] => Dashboard.query st | _ => "" end;
              Dashboard.results :=
                (rev (map stub_exchange qs) ++ Dashboard.results st)%list |}.
Proof.
  revert st. induction qs as [ | q qs IH ]; intros st.
  - destruct st. reflexivity.
  - change (asks (stub_server Number_toString) (q :: qs))
      with (Dashboard.Change q :: Dashboard.Submit (stub_server Number_toString)
            :: asks (stub_server Number_toString) qs).
    rewrite run_cons, step_change, run_cons.
    rewrite (submit_prepends _ _ _ (answer (Llm.template q))
               (stub_answers Number_toString q)) by reflexivity.
    rewrite IH. cbn [Dashboard.query Dashboard.results map rev].
    rewrite <- app_assoc. destruct qs; reflexivity.
Qed.





Lemma read_change_other (k k' : Home.field) (v : string) (f : Home.form) :
  k ≠ k' -> Home.read k (Home.change k' v f) = Home.read k f.
Proof. destruct k, k'; intros H; try reflexivity; contradiction. Qed.

Lemma read_change_same (k : Home.field) (v : string) (f : Home.form) :
  Home.read k (Home.change k v f) = v.
Proof. destruct k; reflexivity. Qed.

Lemma home_run_app (st : Home.state) (l1 l2 : list Home.action) :
  Home.run st (l1 ++ l2)%list = Home.run (Home.run st l1) l2.
Proof. unfold Home.run. apply fold_left_app. Qed.

Lemma read_untouched (k : Home.field) (l : list Home.action) (st : Home.state) :
  (forall v, ~ In (Home.Type_ k v) l) ->
  Home.read k (Home.values (Home.run st l)) = Home.read k (Home.values st).
Proof.
  revert st. induction l as [ | a l IH ]; intros st Hl; [reflexivity |].
  change (Home.run st (a :: l)) with (Home.run (Home.step st a) l).
  rewrite IH by (intros v Hv; apply (Hl v); right; exact Hv).
  destruct a as [k' v' | ]; [| reflexivity]. simpl.
  apply read_change_other. intros ->. apply (Hl v'). left. reflexivity.
Qed.

(** X15. The form of the home page holds, for every input, what was typed into
    it last: typing into the other inputs and switching between login and
    signup, any number of times, before or after, change nothing of it (the
    two modes share one form, and hiding an input does not clear it). *)
Theorem home_keeps_last_typed
    (st : Home.state) (l l' : list Home.action) (k : Home.field) (v : string) :
  (forall v', ~ In (Home.Type_ k v') l') ->
  Home.read k (Home.values (Home.run st (l ++ Home.Type_ k v :: l')%list)) = v.
Proof.
  intros Hl'. rewrite home_run_app.
  change (Home.run (Home.run st l) (Home.Type_ k v :: l'))
    with (Home.run (Home.step (Home.run st l) (Home.Type_ k v)) l').
  rewrite (read_untouched _ _ _ Hl'). apply read_change_same.
Qed.

Lemma home_keeps_last_typed_witness :
  Home.read Home.FPassword
    (Home.values
       (Home.run Home.initial
          ([Home.Type_ Home.FUsername "asha"]
           ++ Home.Type_ Home.FPassword "s3cret"
              :: [Home.Toggle; Home.Type_ Home.FEmail "asha@example.org"; Home.Toggle])%list))
  = "s3cret".
Proof.
  apply home_keeps_last_typed.
  intros v' [H | [H | [H | []]]]; discriminate H.
Defined.

(** X16. The signup form against the signup stub: the page goes to the dashboard
    exactly when neither the username nor the password is empty; the seven
    other fields of the profile, those whose inputs are marked required
    included, are sent and play no part in the answer. *)
Theorem signup_page_against_stub (Number_toString : float -> string) (f : Home.form) :
  calls (Home.handleSignup (stub_server Number_toString) f)
  = [PreventDefault; Fetch "/api/auth/signup" (Home.signup_init f);
     if negb (String.eqb (Home.username f) "") && negb (String.eqb (Home.password f) "")
     then RouterPush "/dashboard" else Alert "Sign up failed"].
Proof.
  unfold Home.handleSignup, fetch, stub_server.
  change (String.eqb "/api/auth/signup" "/api/auth/login") with false.
  change (String.eqb "/api/auth/signup" "/api/auth/signup") with true. cbn iota.
  unfold served. cbn [init_body init_method Home.signup_init].
  rewrite signup_post by reflexivity. cbn [body].
  change (get _ "username") with (JStr (Home.username f)).
  change (get _ "password") with (JStr (Home.password f)).
  change (truthy (JStr ?s)) with (negb (String.eqb s "")).
  destruct (negb (String.eqb (Home.username f) "") && negb (String.eqb (Home.password f) ""));
    reflexivity.
Qed.

(** X17. The upload page against the upload route. With no file selected the
    page alerts and sends nothing. With files selected it sends the first
    one, and says Uploaded and goes to the dashboard whenever formidable
    reports no error and hands over a files object, whatever that holds: the
    route stores nothing and checks neither the type nor the name of the
    file. When formidable reports an error the page says Upload failed. *)
Theorem upload_page_against_route
    (form_parse : request -> jsval * jsval * jsval) (files : list file) :
  calls (Pages.Upload.submit (upload_server form_parse) (Pages.Upload.onChange files))
  = match files with
    | [] => [PreventDefault; Alert "Choose a PDF"]
    | f :: _ =>
        ([PreventDefault; Fetch "/api/upload" (Pages.Upload.upload_init f)]
         ++ (let '(err, _, parsed) := form_parse (post JUndefined) in
             if truthy err || nullish parsed then [Alert "Upload failed"]
             else [Alert "Uploaded"; RouterPush "/dashboard"]))%list
    end.
Proof.
  destruct files as [ | f files ]; [reflexivity |].
  unfold Pages.Upload.onChange, Pages.Upload.submit, fetch, upload_server. cbn [head].
  change (String.eqb "/api/upload" "/api/upload") with true. cbn iota.
  unfold served. cbn [init_body init_method Pages.Upload.upload_init].
  fold (post JUndefined).
  destruct (form_parse (post JUndefined)) as [[err fields] parsed] eqn:Hp.
  rewrite (upload_post form_parse (post JUndefined) _ _ _ eq_refl Hp).
  destruct (truthy err); [reflexivity |].
  destruct (nullish parsed); reflexivity.
Qed.

(** X18. What a submit of the home page sends is what the form shows: the body
    of the request is an object with one property per input rendered in the
    mode of the page, holding the current value of that input, and no other
    property. In login mode the seven profile fields stay in the page, even
    when they were filled in signup mode before. *)
Theorem request_sends_rendered_inputs (st : Home.state) (net : network) :
  exists url o,
    calls (Home.submit net st)
    !! 1%nat = Some (Fetch url {| init_method := "POST";
                                  init_headers := json_headers;
                                  init_body := JsonBody (JObj o) |})
    /\ url = (if Home.isSignup st then "/api/auth/signup" else "/api/auth/login")
    /\ dom o = list_to_set (Home.field_name <$> Home.rendered (Home.isSignup st))
    /\ Forall (fun k => o !! Home.field_name k = Some (JStr (Home.read k (Home.values st))))
         (Home.rendered (Home.isSignup st)).
Proof.
  destruct st as [mode f]. unfold Home.submit. cbn [Home.isSignup Home.values].
  destruct mode; run_page.
  - destruct (net _ _) as [r | e]; [destruct (ok r) |];
      (do 2 eexists; split; [reflexivity |]; split; [reflexivity |];
       split; [vm_compute; reflexivity | repeat constructor]).
  - destruct (net _ _) as [r | e]; [destruct (ok r) |];
      (do 2 eexists; split; [reflexivity |]; split; [reflexivity |];
       split; [vm_compute; reflexivity | repeat constructor]).
Qed.
